(** * Spy v2 backend: signal detection, risk closure and trade logging

    A shallow embedding of [spyv2_backend.py].

    Python dictionaries are finite maps from strings to values
    ([gmap string value]); [d.get(k, default)] is [dict_get].  A field value
    is one of the JSON scalars the handlers can receive: [None]/null, a
    boolean, a number or a string.  A number, [int] or finite [float], is
    held by its exact value, a rational ([Q]); Python compares numbers by
    their exact values.  The multipliers of [manage_risk] are floats, as its
    signature says: binary64 numbers ([spec_float], NaN and the infinities
    included).  A product with a float first converts the other operand to
    a float and is then rounded as the hardware rounds it.  Operations that
    Python rejects at run time ([None > 25], [0.5 * "x"], [0.5 * 10**400],
    [5 .get(...)]) raise, and a raising function returns [Raise e]. *)

From Stdlib Require Import QArith Qpower Lqa SpecFloat.
From stdpp Require Import gmap strings.

Local Open Scope string_scope.

(** ** Values *)

Inductive value : Type :=
| VNone
| VBool (b : bool)
| VNum (q : Q)
| VStr (s : string).

Inductive exn : Type :=
| TypeError
| AttributeError
| OverflowError.

Inductive result (A : Type) : Type :=
| Ok (a : A)
| Raise (e : exn).

Arguments Ok {A} a.
Arguments Raise {A} e.

Definition bind {A B : Type} (r : result A) (k : A -> result B) : result B :=
  match r with
  | Ok a => k a
  | Raise e => Raise e
  end.

Notation "x <- r ;; k" := (bind r (fun x => k))
  (at level 100, r at next level, right associativity).

(** [bool] is a subclass of [int]: [True] counts as 1 and [False] as 0. *)
Definition as_number (v : value) : option Q :=
  match v with
  | VNum q => Some q
  | VBool true => Some 1%Q
  | VBool false => Some 0%Q
  | VNone | VStr _ => None
  end.

(** Ordering of two values: numbers by magnitude, strings lexicographically
    by code point; every other pairing is a [TypeError]. *)
Definition py_compare (a b : value) : result comparison :=
  match as_number a, as_number b with
  | Some x, Some y => Ok (x ?= y)%Q
  | _, _ =>
      match a, b with
      | VStr s, VStr t => Ok (Stdlib.Strings.String.compare s t)
      | _, _ => Raise TypeError
      end
  end.

Definition py_gt (a b : value) : result bool :=
  c <- py_compare a b;;
  Ok (match c with Gt => true | _ => false end).

Definition py_lt (a b : value) : result bool :=
  c <- py_compare a b;;
  Ok (match c with Lt => true | _ => false end).

(** [a == b] never raises; values of different kinds are unequal. *)
Definition py_eq (a b : value) : bool :=
  match as_number a, as_number b with
  | Some x, Some y => Qeq_bool x y
  | _, _ =>
      match a, b with
      | VNone, VNone => true
      | VStr s, VStr t => bool_decide (s = t)
      | _, _ => false
      end
  end.

(** [x and y] evaluates [y] only when [x] is true. *)
Definition py_and (x y : result bool) : result bool :=
  b <- x;; if b then y else Ok false.

(** [d.get(k, default)] *)
Definition dict_get (d : gmap string value) (k : string) (dflt : value) : value :=
  match d !! k with
  | Some v => v
  | None => dflt
  end.

(** ** Floats *)

(** A Python [float] is a binary64 number: 53 bits of precision, the
    infinities at exponent 1024. *)
Definition prec : Z := 53.
Definition emax : Z := 1024.

(** The product of two floats: rounded to nearest, ties to even; past the
    largest float it is an infinity, and nothing is raised. *)
Definition float_mul (x y : spec_float) : spec_float := SFmul prec emax x y.

(** The float written [n / d], for two ints below 2^53: how a literal such
    as 0.5 (1 / 2) or 0.02 (2 / 100) is read. *)
Definition float_literal (n d : Z) : spec_float :=
  SFdiv prec emax (binary_normalize prec emax n 0 false)
                  (binary_normalize prec emax d 0 false).

(** The exponent [k] of a denominator [2^k]. *)
Fixpoint log2_exact (d : positive) : option Z :=
  match d with
  | xH => Some 0%Z
  | xO p => option_map Z.succ (log2_exact p)
  | xI _ => None
  end.

(** The float nearest to a number of value [q], ties to even. The value of
    a float is a binary fraction [n / 2^k] and is kept as it is; an int
    ([k = 0]) is rounded once, to an infinity when it is beyond the largest
    float. A rational that is no binary fraction is the value of no Python
    number; for definiteness it is read as a literal is. *)
Definition nearest_float (q : Q) : spec_float :=
  let r := Qred q in
  match log2_exact (Qden r) with
  | Some k => binary_normalize prec emax (Qnum r) (- k) false
  | None => float_literal (Qnum r) (Zpos (Qden r))
  end.

(** The conversion of a number to a float that precedes a float operation:
    "int too large to convert to float" is an [OverflowError]. *)
Definition to_float (q : Q) : result spec_float :=
  match nearest_float q with
  | S754_infinity _ => Raise OverflowError
  | f => Ok f
  end.

(** The exact value of a finite float. *)
Definition float_value (f : spec_float) : option Q :=
  match f with
  | S754_zero _ => Some 0%Q
  | S754_finite s m e =>
      Some ((if s then -1 else 1) * inject_Z (Zpos m) * Qpower 2 e)%Q
  | S754_infinity _ | S754_nan => None
  end.

(** [x >= t] for a number of value [x] and a float [t]: by exact value when
    [t] is finite; every number is above minus infinity and none is above
    plus infinity; a comparison with NaN is false. *)
Definition ge_float (x : Q) (t : spec_float) : bool :=
  match float_value t with
  | Some y => Qle_bool y x
  | None =>
      match t with
      | S754_infinity negative => negative
      | _ => false
      end
  end.

(** [v >= t] for a float [t]: a [TypeError] unless [v] is a number. *)
Definition py_ge_float (v : value) (t : spec_float) : result bool :=
  match as_number v with
  | Some x => Ok (ge_float x t)
  | None => Raise TypeError
  end.

(** [m * v] for a float [m]: [v] is converted to a float and the product is
    rounded; a [TypeError] unless [v] is a number. *)
Definition py_mul_float (m : spec_float) (v : value) : result spec_float :=
  match as_number v with
  | Some q => f <- to_float q;; Ok (float_mul m f)
  | None => Raise TypeError
  end.

(** ** Signal detection *)

Definition detect_trade_signal (data : gmap string value) : result string :=
  let adx := dict_get data "ADX" (VNum 0) in
  let price := dict_get data "price" (VNum 0) in
  let vwap := dict_get data "VWAP" (VNum 0) in
  bull <- py_and (py_gt adx (VNum 25)) (py_gt price vwap);;
  if bull then Ok "Bullish Signal"
  else
    bear <- py_and (py_gt adx (VNum 25)) (py_lt price vwap);;
    if bear then Ok "Bearish Signal"
    else Ok "No Trade".

(** ** Risk management *)

(** The dictionary is updated in place and handed back; the embedding
    returns the updated dictionary. The two multipliers are floats. *)
Definition manage_risk (trade : gmap string value) (stop_loss take_profit : spec_float)
  : result (gmap string value) :=
  let entry_price := dict_get trade "entry_price" (VNum 0) in
  if py_eq entry_price (VNum 0) then Ok trade
  else
    let loss := dict_get trade "loss" (VNum 0) in
    let profit := dict_get trade "profit" (VNum 0) in
    sl <- py_mul_float stop_loss entry_price;;
    hit_sl <- py_ge_float loss sl;;
    if hit_sl then Ok (<["status" := VStr "closed"]> trade)
    else
      tp <- py_mul_float take_profit entry_price;;
      hit_tp <- py_ge_float profit tp;;
      if hit_tp then Ok (<["status" := VStr "closed"]> trade)
      else Ok trade.

(** ** Trade logging *)

(** What [request.get_json()] hands to the handler: [None] (no body, or the
    body [null]) and the other scalars, an array, or an object. *)
Inductive json_body : Type :=
| BScalar (v : value)
| BArray (items : list value)
| BObject (fields : gmap string value).

(** Truth value of a Python object, as tested by [not payload]. *)
Definition truthy (payload : json_body) : bool :=
  match payload with
  | BScalar VNone => false
  | BScalar (VBool b) => b
  | BScalar (VNum q) => negb (Qeq_bool q 0)
  | BScalar (VStr s) => negb (Nat.eqb (String.length s) 0)
  | BArray items => negb (Nat.eqb (length items) 0)
  | BObject fields => negb (Nat.eqb (size fields) 0)
  end.

(** A field of a [jsonify]-ed reply: a scalar, or the rows the store returned. *)
Inductive reply_field : Type :=
| FScalar (v : value)
| FRows (rows : list (gmap string value)).

(** A Flask reply: the JSON object and the HTTP status code. *)
Definition response : Type := gmap string reply_field * Z.

(** The remote [trades] table, as the list of rows inserted so far. *)
Definition store : Type := list (gmap string value).

(** [supabase.table("trades").insert(row).execute()]: the row is appended
    and [response.data] is the inserted row. *)
Definition supabase_insert (row : gmap string value) (db : store)
  : list (gmap string value) * store :=
  ([row], (db ++ [row])%list).

Definition execute_trade (payload : json_body) (db : store) : result response * store :=
  if negb (truthy payload) then
    (Ok ({[ "status" := FScalar (VStr "error");
            "message" := FScalar (VStr "No JSON payload provided") ]}, 400%Z), db)
  else
    match payload with
    | BObject fields =>
        let signal := dict_get fields "signal" (VStr "No Signal") in
        let broker := dict_get fields "broker" (VStr "Unknown") in
        let capital_allocation := dict_get fields "capital_allocation" (VNum 0) in
        let entry_price := dict_get fields "entry_price" (VNum 0) in
        let user_id := dict_get fields "user_id" VNone in
        let status := VStr "executed" in
        let '(data, db') :=
          supabase_insert
            {[ "signal" := signal;
               "broker" := broker;
               "capital_allocation" := capital_allocation;
               "entry_price" := entry_price;
               "status" := status;
               "user_id" := user_id ]} db in
        (Ok ({[ "status" := FScalar (VStr "success"); "data" := FRows data ]}, 201%Z), db')
    | BScalar _ | BArray _ => (Raise AttributeError, db)
    end.

(** ** Listing and health check *)

(** [supabase.table("trades").select("*").execute()]: [response.data] is
    every row of the table, which is left as it is. *)
Definition supabase_select (db : store) : list (gmap string value) * store :=
  (db, db).

Definition get_trades (db : store) : result response * store :=
  let '(data, db') := supabase_select db in
  (Ok ({[ "status" := FScalar (VStr "success"); "data" := FRows data ]}, 200%Z), db').

Definition test_route : response :=
  ({[ "message" := FScalar (VStr "Spy MVP is running!") ]}, 200%Z).

(** ** Predicates used in the statements *)

(** [v] is a number ([bool] included). *)
Definition is_number (v : value) : bool :=
  match as_number v with
  | Some _ => true
  | None => false
  end.

(** The field [k] of [d], when present, holds a number. *)
Definition numeric_at (d : gmap string value) (k : string) : bool :=
  match d !! k with
  | Some v => is_number v
  | None => true
  end.

(** A dictionary all of whose values are numbers. *)
Definition numeric_fields (d : gmap string value) : Prop :=
  map_Forall (fun _ v => is_number v = true) d.

(** The number [v] converts to a float: it is no int beyond the largest
    float. *)
Definition in_float_range (v : value) : bool :=
  match as_number v with
  | Some q =>
      match to_float q with
      | Ok _ => true
      | Raise _ => false
      end
  | None => false
  end.

(** The float is strictly negative, strictly positive. *)
Definition float_negative (f : spec_float) : bool := SFltb f (S754_zero false).
Definition float_positive (f : spec_float) : bool := SFltb (S754_zero false) f.

(** A float that is not NaN and carries the sign [s]. *)
Definition signed (s : bool) (f : spec_float) : Prop :=
  match f with
  | S754_zero s' | S754_infinity s' | S754_finite s' _ _ => s' = s
  | S754_nan => False
  end.

(** The three labels a signal can take. *)
Definition signal_label (s : string) : Prop :=
  s = "Bullish Signal" \/ s = "Bearish Signal" \/ s = "No Trade".

(** The reply to a request without payload. *)
Definition no_payload_response : response :=
  ({[ "status" := FScalar (VStr "error");
      "message" := FScalar (VStr "No JSON payload provided") ]}, 400%Z).

(** The request carries no JSON body ([None]) or an empty one: an object
    without fields, an array without items, a string without characters. *)
Definition missing_or_empty (payload : json_body) : Prop :=
  match payload with
  | BScalar VNone => True
  | BScalar (VStr s) => s = ""
  | BScalar (VBool _) | BScalar (VNum _) => False
  | BArray items => items = []
  | BObject fields => fields = ∅
  end.

(** The JSON bodies [false] and [0] (any zero number). *)
Definition false_or_zero (payload : json_body) : Prop :=
  payload = BScalar (VBool false) \/
  exists q, payload = BScalar (VNum q) /\ (q == 0)%Q.

(** The fields written to the [trades] table. *)
Definition trade_columns : gset string :=
  {[ "signal"; "broker"; "capital_allocation"; "entry_price"; "status"; "user_id" ]}.

(** The label of the opposite direction. *)
Definition mirror_label (s : string) : string :=
  if bool_decide (s = "Bullish Signal") then "Bearish Signal"
  else if bool_decide (s = "Bearish Signal") then "Bullish Signal"
  else s.

(** The snapshot with the readings of price and VWAP exchanged. *)
Definition swap_price_vwap (data : gmap string value) : gmap string value :=
  <["price" := dict_get data "VWAP" (VNum 0)]>
    (<["VWAP" := dict_get data "price" (VNum 0)]> data).

(** The rows listed in a reply, none when it has no "data" field. *)
Definition listed_rows (r : response) : list (gmap string value) :=
  match r.1 !! "data" with
  | Some (FRows rows) => rows
  | _ => []
  end.

(** A run of execute-trade requests, one after the other on the same
    store: the replies in order and the store at the end. *)
Fixpoint execute_trades (payloads : list json_body) (db : store)
  : list (result response) * store :=
  match payloads with
  | [] => ([], db)
  | payload :: rest =>
      let '(reply, db') := execute_trade payload db in
      let '(replies, db'') := execute_trades rest db' in
      (reply :: replies, db'')
  end.

(** The reply reports a created resource (code 201). *)
Definition is_created (reply : result response) : bool :=
  match reply with
  | Ok (_, code) => (code =? 201)%Z
  | Raise _ => false
  end.

(** A row as [execute_trade] writes it: status "executed" and exactly the
    six columns. *)
Definition executed_row (row : gmap string value) : Prop :=
  row !! "status" = Some (VStr "executed") /\ dom row = trade_columns.

(** ** Sample inputs *)

Definition sample_snapshot : gmap string value :=
  {[ "ADX" := VNum 30; "price" := VNum 399; "VWAP" := VNum 400 ]}.

(** Negative and oversized readings, and no VWAP. *)
Definition wild_snapshot : gmap string value :=
  {[ "ADX" := VNum (-5); "price" := VNum 1000000 ]}.

Definition sample_position : gmap string value :=
  {[ "entry_price" := VNum 400; "loss" := VNum 200; "profit" := VNum 0;
     "status" := VStr "open" ]}.

Definition zero_entry_position : gmap string value :=
  {[ "entry_price" := VNum 0; "loss" := VNum 500; "profit" := VNum 900;
     "status" := VStr "open" ]}.

Definition no_entry_position : gmap string value :=
  {[ "loss" := VNum 500; "status" := VStr "open" ]}.

Definition negative_entry_position : gmap string value :=
  {[ "entry_price" := VNum (-400); "status" := VStr "open" ]}.

Definition sample_payload : gmap string value :=
  {[ "signal" := VStr "Bullish Signal"; "status" := VStr "open" ]}.

(** Prices sent as text. *)
Definition text_snapshot : gmap string value :=
  {[ "ADX" := VNum 30; "price" := VStr "100"; "VWAP" := VStr "99" ]}.

(** A weak trend with unusable price readings. *)
Definition weak_snapshot : gmap string value :=
  {[ "ADX" := VNum 25; "price" := VNone; "VWAP" := VStr "n/a" ]}.

Definition null_price_snapshot : gmap string value :=
  {[ "ADX" := VNum 30; "price" := VNone; "VWAP" := VNum 400 ]}.

Definition null_entry_position : gmap string value :=
  {[ "entry_price" := VNone; "status" := VStr "open" ]}.

Definition text_profit_position : gmap string value :=
  {[ "entry_price" := VNum 400; "loss" := VNum 250; "profit" := VStr "n/a";
     "status" := VStr "open" ]}.

Definition text_loss_position : gmap string value :=
  {[ "entry_price" := VNum 400; "loss" := VStr "n/a"; "status" := VStr "open" ]}.

Definition short_payload : gmap string value :=
  {[ "signal" := VStr "Bearish Signal"; "entry_price" := VNum (-400) ]}.

(** The default multipliers of [manage_risk]: 0.5 and 1.0. *)
Definition default_stop_loss : spec_float := float_literal 1 2.
Definition default_take_profit : spec_float := float_literal 1 1.

(** An entry price beyond the largest float, and its opposite. *)
Definition huge_entry_position : gmap string value :=
  {[ "entry_price" := VNum (inject_Z (10 ^ 400)); "loss" := VNum 0;
     "profit" := VNum 0; "status" := VStr "open" ]}.

Definition huge_negative_entry_position : gmap string value :=
  {[ "entry_price" := VNum (inject_Z (- 10 ^ 400)); "status" := VStr "open" ]}.

(** Closes one direction of one row of a decision table once the outcome of
    every comparison is known. *)
Ltac table_case :=
  match goal with
  | H : Ok _ = Ok _ |- _ => discriminate H
  | H : _ /\ _ |- _ => destruct H; lra
  | H : _ \/ _ |- _ => destruct H; lra
  | |- Ok _ = Ok _ => reflexivity
  | |- _ /\ _ => split; lra
  | |- _ \/ _ => (left; lra) || (right; lra)
  end.

(** ** Running the code on the examples of the documentation *)

Example detect_empty : detect_trade_signal ∅ = Ok "No Trade".
Proof. reflexivity. Qed.

Example detect_bull :
  detect_trade_signal {[ "ADX" := VNum 30; "price" := VNum 401; "VWAP" := VNum 400 ]}
  = Ok "Bullish Signal".
Proof. vm_compute. reflexivity. Qed.

Example detect_none_adx :
  detect_trade_signal {[ "ADX" := VNone ]} = Raise TypeError.
Proof. vm_compute. reflexivity. Qed.

Example default_stop_loss_value :
  default_stop_loss = S754_finite false (2 ^ 52) (-53) /\
  option_map Qred (float_value default_stop_loss) = Some (1 # 2).
Proof. split; vm_compute; reflexivity. Qed.

Example default_take_profit_value :
  default_take_profit = S754_finite false (2 ^ 52) (-52) /\
  option_map Qred (float_value default_take_profit) = Some 1%Q.
Proof. split; vm_compute; reflexivity. Qed.

Example manage_risk_boundary :
  manage_risk {[ "entry_price" := VNum 400; "loss" := VNum 200; "status" := VStr "open" ]}
    default_stop_loss default_take_profit
  = Ok {[ "entry_price" := VNum 400; "loss" := VNum 200; "status" := VStr "closed" ]}.
Proof. vm_compute. reflexivity. Qed.

Example manage_risk_below :
  manage_risk {[ "entry_price" := VNum 400; "profit" := VNum 399; "loss" := VNum 0;
                 "status" := VStr "open" ]} default_stop_loss default_take_profit
  = Ok {[ "entry_price" := VNum 400; "profit" := VNum 399; "loss" := VNum 0;
          "status" := VStr "open" ]}.
Proof. vm_compute. reflexivity. Qed.

(** 0.02 * 100 is rounded to 2.0, so a loss of 2 meets the threshold. *)
Example manage_risk_rounded_product :
  manage_risk {[ "entry_price" := VNum 100; "loss" := VNum 2; "status" := VStr "open" ]}
    (float_literal 2 100) default_take_profit
  = Ok {[ "entry_price" := VNum 100; "loss" := VNum 2; "status" := VStr "closed" ]}.
Proof. vm_compute. reflexivity. Qed.

(** The int 2^53 + 1 becomes the float 2^53 before it is multiplied. *)
Example manage_risk_rounded_entry :
  manage_risk {[ "entry_price" := VNum (inject_Z (2 ^ 53 + 1));
                 "loss" := VNum (inject_Z (2 ^ 53)); "status" := VStr "open" ]}
    (float_literal 1 1) default_take_profit
  = Ok {[ "entry_price" := VNum (inject_Z (2 ^ 53 + 1));
          "loss" := VNum (inject_Z (2 ^ 53)); "status" := VStr "closed" ]}.
Proof. vm_compute. reflexivity. Qed.

(** 0.5 times the smallest positive float is rounded to 0.0, and 0 >= 0.0. *)
Example manage_risk_underflow :
  manage_risk {[ "entry_price" := VNum (1 # 2 ^ 1074); "status" := VStr "open" ]}
    default_stop_loss default_take_profit
  = Ok {[ "entry_price" := VNum (1 # 2 ^ 1074); "status" := VStr "closed" ]}.
Proof. vm_compute. reflexivity. Qed.

Example execute_trade_minimal :
  execute_trade (BObject {[ "status" := VStr "open" ]}) []
  = (Ok ({[ "status" := FScalar (VStr "success");
            "data" := FRows [ {[ "signal" := VStr "No Signal"; "broker" := VStr "Unknown";
                                 "capital_allocation" := VNum 0; "entry_price" := VNum 0;
                                 "status" := VStr "executed"; "user_id" := VNone ]} ] ]}, 201%Z),
     [ {[ "signal" := VStr "No Signal"; "broker" := VStr "Unknown";
          "capital_allocation" := VNum 0; "entry_price" := VNum 0;
          "status" := VStr "executed"; "user_id" := VNone ]} ]).
Proof. vm_compute. reflexivity. Qed.

Example execute_trade_number_body :
  execute_trade (BScalar (VNum 5)) [] = (Raise AttributeError, []).
Proof. reflexivity. Qed.

(** ** Comparisons on numbers *)

Section Comparisons.
Variables (a b : value) (x y : Q).
Hypothesis Ha : as_number a = Some x.
Hypothesis Hb : as_number b = Some y.

Lemma py_compare_num : py_compare a b = Ok (x ?= y)%Q.
Proof. unfold py_compare. by rewrite Ha, Hb. Qed.

Lemma py_gt_num : exists c, py_gt a b = Ok c /\ (c = true <-> (y < x)%Q).
Proof.
  unfold py_gt. rewrite py_compare_num. simpl. eexists; split; [reflexivity|].
  rewrite Qgt_alt. destruct (x ?= y)%Q; split; congruence.
Qed.

Lemma py_lt_num : exists c, py_lt a b = Ok c /\ (c = true <-> (x < y)%Q).
Proof.
  unfold py_lt. rewrite py_compare_num. simpl. eexists; split; [reflexivity|].
  rewrite Qlt_alt. destruct (x ?= y)%Q; split; congruence.
Qed.

Lemma py_eq_num : py_eq a b = true <-> (x == y)%Q.
Proof. unfold py_eq. rewrite Ha, Hb. apply Qeq_bool_iff. Qed.
End Comparisons.

Lemma dict_get_absent (d : gmap string value) k dflt :
  d !! k = None -> dict_get d k dflt = dflt.
Proof. unfold dict_get. by intros ->. Qed.

Lemma dict_get_present (d : gmap string value) k dflt v :
  d !! k = Some v -> dict_get d k dflt = v.
Proof. unfold dict_get. by intros ->. Qed.

Lemma dict_get_insert_default (d : gmap string value) k k' dflt dflt' :
  d !! k = None -> dict_get (<[k := dflt]> d) k' dflt' = 
                   if decide (k = k') then dflt else dict_get d k' dflt'.
Proof.
  intros Hk. unfold dict_get. rewrite lookup_insert. by case_decide.
Qed.

(** ** Signal detection: the decision table *)

(** C1: on a snapshot whose ADX, price and VWAP fields are numbers (an absent
    field counting as 0), the signal is "Bullish Signal" exactly when
    ADX > 25 and price > VWAP, "Bearish Signal" exactly when ADX > 25 and
    price < VWAP, and "No Trade" exactly in the remaining cases, that is when
    ADX <= 25 or price = VWAP. *)
Theorem detect_trade_signal_table (data : gmap string value) (adx price vwap : Q) :
  as_number (dict_get data "ADX" (VNum 0)) = Some adx ->
  as_number (dict_get data "price" (VNum 0)) = Some price ->
  as_number (dict_get data "VWAP" (VNum 0)) = Some vwap ->
  (detect_trade_signal data = Ok "Bullish Signal" <-> (25 < adx)%Q /\ (vwap < price)%Q) /\
  (detect_trade_signal data = Ok "Bearish Signal" <-> (25 < adx)%Q /\ (price < vwap)%Q) /\
  (detect_trade_signal data = Ok "No Trade" <-> (adx <= 25)%Q \/ (price == vwap)%Q).
Proof.
  intros Hadx Hprice Hvwap.
  destruct (py_gt_num _ (VNum 25) _ 25%Q Hadx eq_refl) as (c1 & E1 & I1).
  destruct (py_gt_num _ _ _ _ Hprice Hvwap) as (c2 & E2 & I2).
  destruct (py_lt_num _ _ _ _ Hprice Hvwap) as (c3 & E3 & I3).
  unfold detect_trade_signal, py_and. rewrite E1, E2, E3. simpl.
  assert (D1 : c1 = true /\ (25 < adx)%Q \/ c1 = false /\ (adx <= 25)%Q).
  { destruct c1; [left; split; [done | by apply I1] | right; split; [done|]].
    apply Qnot_lt_le. intros H. by apply I1 in H. }
  assert (D2 : c2 = true /\ c3 = false /\ (vwap < price)%Q \/
               c2 = false /\ c3 = true /\ (price < vwap)%Q \/
               c2 = false /\ c3 = false /\ (price == vwap)%Q).
  { destruct c2, c3.
    - assert (vwap < price)%Q by (by apply I2). assert (price < vwap)%Q by (by apply I3). lra.
    - left. repeat split. by apply I2.
    - right; left. repeat split. by apply I3.
    - right; right. repeat split.
      destruct (Q_dec price vwap) as [[H | H] | H]; [| | done].
      + by apply I3 in H.
      + by apply I2 in H. }
  destruct D1 as [[-> A] | [-> A]], D2 as [(-> & -> & P) | [(-> & -> & P) | (-> & -> & P)]];
    simpl; (split; [| split]); (split; intros H); table_case.
Qed.

Lemma numeric_fields_at (d : gmap string value) k :
  numeric_fields d -> numeric_at d k = true.
Proof.
  intros Hd. unfold numeric_at. destruct (d !! k) as [v|] eqn:E; [| done].
  exact (Hd k v E).
Qed.

Lemma numeric_at_get (d : gmap string value) k (q : Q) :
  numeric_at d k = true -> exists x, as_number (dict_get d k (VNum q)) = Some x.
Proof.
  unfold numeric_at, dict_get, is_number. destruct (d !! k) as [v|].
  - destruct (as_number v) as [x|]; [by exists x | done].
  - by exists q.
Qed.

(** C6: signal detection is total on numeric snapshots: whenever the ADX,
    price and VWAP fields that are present hold numbers (of any sign or size)
    it returns one of the three labels and raises nothing; a missing ADX,
    price or VWAP field is read as 0; and the empty snapshot gives
    "No Trade". *)
Theorem detect_trade_signal_total :
  (forall data : gmap string value,
      numeric_at data "ADX" = true -> numeric_at data "price" = true ->
      numeric_at data "VWAP" = true ->
      exists s, detect_trade_signal data = Ok s /\ signal_label s) /\
  (forall (data : gmap string value) k,
      k = "ADX" \/ k = "price" \/ k = "VWAP" ->
      data !! k = None ->
      detect_trade_signal data = detect_trade_signal (<[k := VNum 0]> data)) /\
  detect_trade_signal ∅ = Ok "No Trade".
Proof.
  split; [| split].
  - intros data Ha Hp Hv.
    destruct (numeric_at_get _ _ 0 Ha) as [adx Hadx].
    destruct (numeric_at_get _ _ 0 Hp) as [price Hprice].
    destruct (numeric_at_get _ _ 0 Hv) as [vwap Hvwap].
    destruct (py_gt_num _ (VNum 25) _ 25%Q Hadx eq_refl) as (c1 & E1 & _).
    destruct (py_gt_num _ _ _ _ Hprice Hvwap) as (c2 & E2 & _).
    destruct (py_lt_num _ _ _ _ Hprice Hvwap) as (c3 & E3 & _).
    unfold detect_trade_signal, py_and, signal_label. rewrite E1, E2, E3. simpl.
    destruct c1, c2, c3; simpl; eauto 6.
  - intros data k Hk Hnone. unfold detect_trade_signal.
    rewrite !(dict_get_insert_default _ _ _ _ _ Hnone).
    destruct Hk as [-> | [-> | ->]]; repeat case_decide; try done;
      by rewrite (dict_get_absent _ _ _ Hnone).
  - reflexivity.
Qed.

(** ** Floats: rounding keeps the sign *)

Lemma iter_pos_invariant {A} (P : A -> Prop) (f : A -> A) :
  (forall x, P x -> P (f x)) ->
  forall n x, P x -> P (SpecFloat.iter_pos f n x).
Proof.
  intros Hf. induction n as [n IH | n IH |]; intros x Hx; simpl; auto.
Qed.

Lemma shr_1_nonneg mrs : (0 <= shr_m mrs)%Z -> (0 <= shr_m (shr_1 mrs))%Z.
Proof.
  destruct mrs as [m r s]. simpl.
  destruct m as [| [p | p |] | p]; simpl; lia.
Qed.

Lemma shr_nonneg mrs e n : (0 <= shr_m mrs)%Z -> (0 <= shr_m (shr mrs e n).1)%Z.
Proof.
  intros H. destruct n as [| p | p]; simpl; try done.
  by apply (iter_pos_invariant (fun r => (0 <= shr_m r)%Z)); [apply shr_1_nonneg |].
Qed.

Lemma shr_fexp_nonneg m e l :
  (0 <= m)%Z -> (0 <= shr_m (shr_fexp prec emax m e l).1)%Z.
Proof.
  intros H. unfold shr_fexp. apply shr_nonneg.
  by destruct l as [| []].
Qed.

Lemma round_nearest_even_nonneg m l :
  (0 <= m)%Z -> (0 <= round_nearest_even m l)%Z.
Proof.
  intros H. destruct l as [| []]; simpl; try lia.
  destruct (Z.even m); lia.
Qed.

Lemma binary_round_aux_signed s m e l :
  (0 <= m)%Z -> signed s (binary_round_aux prec emax s m e l).
Proof.
  intros H. unfold binary_round_aux.
  pose proof (shr_fexp_nonneg m e l H) as H1.
  destruct (shr_fexp prec emax m e l) as [mrs' e'].
  pose proof (shr_fexp_nonneg _ e' loc_Exact
                (round_nearest_even_nonneg _ (loc_of_shr_record mrs') H1)) as H2.
  destruct (shr_fexp prec emax _ e' loc_Exact) as [mrs'' e''].
  simpl in *. destruct (shr_m mrs'') as [| p | p]; [done | | lia].
  by destruct (_ <=? _)%Z.
Qed.

(** A positive float times a negative float is negative: a negative number,
    minus zero after an underflow, or minus infinity; never NaN. *)
Lemma float_mul_positive_negative x y :
  float_positive x = true -> float_negative y = true -> signed true (float_mul x y).
Proof.
  unfold float_positive, float_negative, SFltb, float_mul.
  destruct x as [sx | [|] | | [|] mx ex], y as [sy | [|] | | [|] my ey];
    simpl; try discriminate; intros _ _; try reflexivity.
  apply binary_round_aux_signed. lia.
Qed.

(** A number that is not negative is at least any float of negative sign. *)
Lemma ge_float_signed (x : Q) (t : spec_float) :
  (0 <= x)%Q -> signed true t -> ge_float x t = true.
Proof.
  intros Hx Ht. unfold ge_float.
  destruct t as [s | s | | s m e]; simpl in *; subst; try done.
  - by apply Qle_bool_iff.
  - apply Qle_bool_iff.
    assert (Hpow : (0 < Qpower 2 e)%Q) by (by apply Qpower_0_lt).
    assert (Hm : (0 < inject_Z (Z.pos m))%Q) by (unfold Qlt; simpl; lia).
    nra.
Qed.

Lemma ge_float_equal (x y : Q) (t : spec_float) :
  float_value t = Some y -> (x == y)%Q -> ge_float x t = true.
Proof.
  intros Ht Heq. unfold ge_float. rewrite Ht. apply Qle_bool_iff. lra.
Qed.

Lemma ge_float_mono (x x' : Q) (t : spec_float) :
  (x <= x')%Q -> ge_float x t = true -> ge_float x' t = true.
Proof.
  intros Hx. unfold ge_float. destruct (float_value t) as [y|]; [| done].
  rewrite !Qle_bool_iff. lra.
Qed.

Lemma py_ge_float_num (v : value) (x : Q) :
  as_number v = Some x -> forall t, py_ge_float v t = Ok (ge_float x t).
Proof. unfold py_ge_float. by intros ->. Qed.

Lemma py_ge_float_raise (v : value) :
  as_number v = None -> forall t, py_ge_float v t = Raise TypeError.
Proof. unfold py_ge_float. by intros ->. Qed.

Lemma to_float_raise (q : Q) (e : exn) : to_float q = Raise e -> e = OverflowError.
Proof. unfold to_float. destruct (nearest_float q); by intros [= <-]. Qed.

(** ** Risk management: guard, thresholds and frame *)

Lemma manage_risk_guard (trade : gmap string value) sl tp :
  py_eq (dict_get trade "entry_price" (VNum 0)) (VNum 0) = true ->
  manage_risk trade sl tp = Ok trade.
Proof. intros H. unfold manage_risk. by rewrite H. Qed.

(** Past the guard, with an entry price that converts to the float [f],
    what is left is the two threshold tests. *)
Lemma manage_risk_past_guard (trade : gmap string value) sl tp e f :
  as_number (dict_get trade "entry_price" (VNum 0)) = Some e ->
  ~ (e == 0)%Q ->
  to_float e = Ok f ->
  manage_risk trade sl tp =
    (hit_sl <- py_ge_float (dict_get trade "loss" (VNum 0)) (float_mul sl f);;
     if hit_sl then Ok (<["status" := VStr "closed"]> trade)
     else
       hit_tp <- py_ge_float (dict_get trade "profit" (VNum 0)) (float_mul tp f);;
       if hit_tp then Ok (<["status" := VStr "closed"]> trade) else Ok trade).
Proof.
  intros He Hnz Hf. unfold manage_risk, py_mul_float.
  destruct (py_eq _ (VNum 0)) eqn:Hz.
  - apply (py_eq_num _ (VNum 0) e 0%Q He eq_refl) in Hz. contradiction.
  - by rewrite He, Hf.
Qed.

(** Past the guard, an entry price that does not convert to a float stops
    the function at the first product. *)
Lemma manage_risk_overflow (trade : gmap string value) sl tp e :
  as_number (dict_get trade "entry_price" (VNum 0)) = Some e ->
  ~ (e == 0)%Q ->
  in_float_range (dict_get trade "entry_price" (VNum 0)) = false ->
  manage_risk trade sl tp = Raise OverflowError.
Proof.
  intros He Hnz Hr. unfold manage_risk, py_mul_float.
  destruct (py_eq _ (VNum 0)) eqn:Hz.
  - apply (py_eq_num _ (VNum 0) e 0%Q He eq_refl) in Hz. contradiction.
  - unfold in_float_range in Hr. rewrite He in *.
    destruct (to_float e) as [f | err] eqn:Hf; [discriminate Hr |].
    by rewrite (to_float_raise _ _ Hf).
Qed.

Lemma in_float_range_get (trade : gmap string value) k :
  in_float_range (dict_get trade k (VNum 0)) = true ->
  exists e f, as_number (dict_get trade k (VNum 0)) = Some e /\ to_float e = Ok f.
Proof.
  unfold in_float_range. destruct (as_number _) as [e|]; [| done].
  destruct (to_float e) as [f|] eqn:Hf; [| done]. eauto.
Qed.

(** Whatever the input, a returned trade is the input itself or the input
    with its status set to "closed". *)
Lemma manage_risk_outcome (trade trade' : gmap string value) sl tp :
  manage_risk trade sl tp = Ok trade' ->
  trade' = trade \/ trade' = <["status" := VStr "closed"]> trade.
Proof.
  unfold manage_risk, bind.
  repeat match goal with
         | |- context [match ?c with _ => _ end] => destruct c
         | |- context [if ?c then _ else _] => destruct c
         end; intros H; inversion H; auto.
Qed.

(** On numeric positions whose entry price converts to a float the function
    returns. *)
Lemma manage_risk_returns (trade : gmap string value) sl tp :
  in_float_range (dict_get trade "entry_price" (VNum 0)) = true ->
  numeric_at trade "loss" = true ->
  numeric_at trade "profit" = true ->
  exists trade', manage_risk trade sl tp = Ok trade'.
Proof.
  intros He Hl Hp.
  destruct (in_float_range_get _ _ He) as (e & f & Ee & Ef).
  destruct (numeric_at_get _ _ 0 Hl) as [l El].
  destruct (numeric_at_get _ _ 0 Hp) as [p Ep].
  destruct (Qeq_dec e 0) as [Hz | Hz].
  - exists trade. apply manage_risk_guard.
    by apply (py_eq_num _ (VNum 0) e 0%Q Ee eq_refl).
  - rewrite (manage_risk_past_guard _ _ _ _ _ Ee Hz Ef).
    rewrite (py_ge_float_num _ _ El), (py_ge_float_num _ _ Ep). simpl.
    destruct (ge_float l (float_mul sl f)), (ge_float p (float_mul tp f)); eauto.
Qed.

(** C2, as stated, fails: an int that is too large for a float is a non-zero
    entry price, yet the position is neither closed nor handed back: the
    first product raises. *)
Lemma manage_risk_huge_entry :
  manage_risk huge_entry_position default_stop_loss default_take_profit
  = Raise OverflowError.
Proof. vm_compute. reflexivity. Qed.

(** C2, amended: for a position with a non-zero entry price that converts to
    a float [f] (numeric loss and profit, read as 0 when absent), the status
    becomes "closed" if loss >= stop_loss * f; otherwise it becomes "closed"
    if profit >= take_profit * f; otherwise the position is returned as it
    was. The products are the rounded float products and both tests are
    inclusive: a loss, or failing that a profit, equal to its threshold
    closes the trade. *)
Theorem manage_risk_thresholds (trade : gmap string value)
    (sl tp : spec_float) (e : Q) (f : spec_float) (l p : Q) :
  as_number (dict_get trade "entry_price" (VNum 0)) = Some e ->
  ~ (e == 0)%Q ->
  to_float e = Ok f ->
  as_number (dict_get trade "loss" (VNum 0)) = Some l ->
  as_number (dict_get trade "profit" (VNum 0)) = Some p ->
  (ge_float l (float_mul sl f) = true ->
   manage_risk trade sl tp = Ok (<["status" := VStr "closed"]> trade)) /\
  (ge_float l (float_mul sl f) = false -> ge_float p (float_mul tp f) = true ->
   manage_risk trade sl tp = Ok (<["status" := VStr "closed"]> trade)) /\
  (ge_float l (float_mul sl f) = false -> ge_float p (float_mul tp f) = false ->
   manage_risk trade sl tp = Ok trade) /\
  (forall y, float_value (float_mul sl f) = Some y -> (l == y)%Q ->
   manage_risk trade sl tp = Ok (<["status" := VStr "closed"]> trade)) /\
  (forall y, float_value (float_mul tp f) = Some y -> (p == y)%Q ->
   ge_float l (float_mul sl f) = false ->
   manage_risk trade sl tp = Ok (<["status" := VStr "closed"]> trade)).
Proof.
  intros Ee Hnz Ef El Ep.
  rewrite (manage_risk_past_guard _ _ _ _ _ Ee Hnz Ef).
  rewrite (py_ge_float_num _ _ El), (py_ge_float_num _ _ Ep). simpl.
  split; [by intros -> |].
  split; [by intros -> -> |].
  split; [by intros -> -> |].
  split.
  - intros y Hy Heq. by rewrite (ge_float_equal _ _ _ Hy Heq).
  - intros y Hy Heq ->. by rewrite (ge_float_equal _ _ _ Hy Heq).
Qed.

(** C3: a position whose entry price is a number equal to 0 comes back
    unchanged, whatever its loss, profit and status and whatever the two
    multipliers. *)
Theorem manage_risk_zero_entry (trade : gmap string value)
    (sl tp : spec_float) v (e : Q) :
  trade !! "entry_price" = Some v ->
  as_number v = Some e ->
  (e == 0)%Q ->
  manage_risk trade sl tp = Ok trade.
Proof.
  intros Hv He Hz. apply manage_risk_guard.
  rewrite (dict_get_present _ _ _ _ Hv).
  by apply (py_eq_num _ (VNum 0) e 0%Q He eq_refl).
Qed.

(** C10: a trade without any entry_price field has its entry price read as 0
    and comes back unchanged, whatever its other fields and the two
    multipliers. *)
Theorem manage_risk_no_entry (trade : gmap string value) (sl tp : spec_float) :
  trade !! "entry_price" = None ->
  dict_get trade "entry_price" (VNum 0) = VNum 0 /\
  manage_risk trade sl tp = Ok trade.
Proof.
  intros Hnone. split; [by apply dict_get_absent |].
  apply manage_risk_guard. by rewrite (dict_get_absent _ _ _ Hnone).
Qed.

(** C7: the returned position differs from the input in its status field at
    most: every other field (entry_price, profit, loss, ...) is kept, present
    or absent, as it was; and a position is returned whenever loss and
    profit are numbers and the entry price is a number that converts to a
    float. *)
Theorem manage_risk_frame (trade : gmap string value) (sl tp : spec_float) :
  (in_float_range (dict_get trade "entry_price" (VNum 0)) = true ->
   numeric_at trade "loss" = true ->
   numeric_at trade "profit" = true ->
   exists trade', manage_risk trade sl tp = Ok trade') /\
  (forall trade', manage_risk trade sl tp = Ok trade' ->
     forall k, k <> "status" -> trade' !! k = trade !! k).
Proof.
  split; [apply manage_risk_returns |].
  intros trade' H k Hk.
  destruct (manage_risk_outcome _ _ _ _ H) as [-> | ->]; [done |].
  by rewrite lookup_insert_ne.
Qed.

(** C8, as stated, fails: a negative int that is too large for a float is a
    strictly negative entry price, the loss defaults to 0 and 0.5 is
    positive, yet the status is not set: the product raises. *)
Lemma manage_risk_huge_negative_entry :
  manage_risk huge_negative_entry_position default_stop_loss default_take_profit
  = Raise OverflowError.
Proof. vm_compute. reflexivity. Qed.

(** C8, amended: with an entry price that converts to a strictly negative
    float, a non-negative loss (0 when the loss field is absent) and a
    strictly positive stop-loss multiplier, the status is set to "closed". *)
Theorem manage_risk_negative_entry (trade : gmap string value)
    (sl tp : spec_float) (e : Q) (f : spec_float) (l : Q) :
  as_number (dict_get trade "entry_price" (VNum 0)) = Some e ->
  to_float e = Ok f ->
  float_negative f = true ->
  as_number (dict_get trade "loss" (VNum 0)) = Some l ->
  (0 <= l)%Q ->
  float_positive sl = true ->
  manage_risk trade sl tp = Ok (<["status" := VStr "closed"]> trade).
Proof.
  intros Ee Ef Hneg El Hl Hsl.
  destruct (Qeq_dec e 0) as [Hz | Hnz].
  { exfalso. revert Ef Hneg. unfold to_float, nearest_float.
    rewrite (Qred_complete _ _ Hz). simpl. by intros [= <-]. }
  rewrite (manage_risk_past_guard _ _ _ _ _ Ee Hnz Ef).
  rewrite (py_ge_float_num _ _ El). simpl.
  by rewrite (ge_float_signed _ _ Hl (float_mul_positive_negative _ _ Hsl Hneg)).
Qed.

(** C9: the status of a returned trade is the status of the input or the
    string "closed"; a status that was "closed" is still "closed"; and a
    trade is returned whenever loss and profit are numbers and the entry
    price is a number that converts to a float. *)
Theorem manage_risk_status (trade : gmap string value) (sl tp : spec_float) :
  (in_float_range (dict_get trade "entry_price" (VNum 0)) = true ->
   numeric_at trade "loss" = true ->
   numeric_at trade "profit" = true ->
   exists trade', manage_risk trade sl tp = Ok trade') /\
  (forall trade', manage_risk trade sl tp = Ok trade' ->
     (trade' !! "status" = trade !! "status" \/
      trade' !! "status" = Some (VStr "closed")) /\
     (trade !! "status" = Some (VStr "closed") ->
      trade' !! "status" = Some (VStr "closed"))).
Proof.
  split; [apply manage_risk_returns |].
  intros trade' H.
  destruct (manage_risk_outcome _ _ _ _ H) as [-> | ->].
  - auto.
  - rewrite lookup_insert_eq. auto.
Qed.

(** ** Trade logging: the missing-payload reply and the inserted row *)

Lemma truthy_false_iff payload :
  truthy payload = false <-> missing_or_empty payload \/ false_or_zero payload.
Proof.
  unfold false_or_zero.
  destruct payload as [[| [|] | q | s] | items | fields]; simpl.
  - naive_solver.
  - split; [done |]. intros [[] | [H | (q & H & _)]]; discriminate H.
  - naive_solver.
  - rewrite negb_false_iff, Qeq_bool_iff. split.
    + intros H. right. right. by exists q.
    + intros [[] | [H | (q' & H & Hq)]]; [discriminate H |]. by injection H as ->.
  - rewrite negb_false_iff, Nat.eqb_eq. split.
    + intros H. left. by destruct s.
    + intros [-> | [H | (q & H & _)]]; [done | discriminate H ..].
  - rewrite negb_false_iff, Nat.eqb_eq. split.
    + intros H. left. by destruct items.
    + intros [-> | [H | (q & H & _)]]; [done | discriminate H ..].
  - rewrite negb_false_iff, Nat.eqb_eq, map_size_empty_iff. split.
    + by left.
    + intros [-> | [H | (q & H & _)]]; [done | discriminate H ..].
Qed.

Lemma execute_trade_falsy payload db :
  truthy payload = false -> execute_trade payload db = (Ok no_payload_response, db).
Proof. intros H. unfold execute_trade. by rewrite H. Qed.

Lemma execute_trade_truthy payload db :
  truthy payload = true -> (execute_trade payload db).1 <> Ok no_payload_response.
Proof.
  intros H. unfold execute_trade, no_payload_response. rewrite H. simpl.
  destruct payload; simpl; [discriminate | discriminate |].
  intros [= _ Hcode].
Qed.

(** C4, as stated, fails: the body [0] is present, parses and is not empty,
    and is answered with the missing-payload reply all the same. *)
Lemma execute_trade_zero_body :
  execute_trade (BScalar (VNum 0)) [] = (Ok no_payload_response, []) /\
  ~ missing_or_empty (BScalar (VNum 0)).
Proof. split; [reflexivity | intros []]. Qed.

(** C4, amended: the reply is the 400 reply with the message
    "No JSON payload provided" exactly when the payload is false in Python's
    sense, that is missing or empty, or the body [false] or a zero number;
    in that case the store is left as it was. For an object payload this is
    exactly the case of the object without fields. *)
Theorem execute_trade_no_payload (payload : json_body) (db : store) :
  ((execute_trade payload db).1 = Ok no_payload_response <->
   missing_or_empty payload \/ false_or_zero payload) /\
  (missing_or_empty payload \/ false_or_zero payload ->
   execute_trade payload db = (Ok no_payload_response, db)) /\
  (forall fields, payload = BObject fields ->
     ((execute_trade payload db).1 = Ok no_payload_response <-> fields = ∅)).
Proof.
  assert (Hiff : (execute_trade payload db).1 = Ok no_payload_response <->
                 truthy payload = false).
  { split.
    - intros H. destruct (truthy payload) eqn:Ht; [| done].
      by destruct (execute_trade_truthy payload db Ht).
    - intros H. by rewrite (execute_trade_falsy _ _ H). }
  split; [| split].
  - by rewrite Hiff, truthy_false_iff.
  - intros H. by apply execute_trade_falsy, truthy_false_iff.
  - intros fields ->. rewrite Hiff, truthy_false_iff. unfold false_or_zero. simpl.
    split; [| by left].
    intros [H | [H | (q & H & _)]]; [done | discriminate H ..].
Qed.

(** C5: for a payload object with at least one field, one row is inserted and
    returned with the created-resource code 201; its status is "executed"
    whatever the payload says; signal, broker, capital_allocation,
    entry_price and user_id are copied from the payload when present and
    are otherwise "No Signal", "Unknown", 0, 0 and null; the row has no other
    field. *)
Theorem execute_trade_row (fields : gmap string value) (db : store) :
  fields <> ∅ ->
  exists row : gmap string value,
    execute_trade (BObject fields) db =
      (Ok ({[ "status" := FScalar (VStr "success"); "data" := FRows [row] ]}, 201%Z),
       (db ++ [row])%list) /\
    row !! "status" = Some (VStr "executed") /\
    (forall k v, k ∈ trade_columns -> k <> "status" ->
                 fields !! k = Some v -> row !! k = Some v) /\
    (fields !! "signal" = None -> row !! "signal" = Some (VStr "No Signal")) /\
    (fields !! "broker" = None -> row !! "broker" = Some (VStr "Unknown")) /\
    (fields !! "capital_allocation" = None ->
     row !! "capital_allocation" = Some (VNum 0)) /\
    (fields !! "entry_price" = None -> row !! "entry_price" = Some (VNum 0)) /\
    (fields !! "user_id" = None -> row !! "user_id" = Some VNone) /\
    dom row = trade_columns.
Proof.
  intros Hne.
  assert (Ht : truthy (BObject fields) = true).
  { simpl. apply negb_true_iff, Nat.eqb_neq. by rewrite map_size_empty_iff. }
  unfold execute_trade. rewrite Ht. simpl.
  eexists. split; [reflexivity |].
  split; [by simplify_map_eq |].
  split.
  { intros k v Hk Hs Hv. unfold trade_columns in Hk.
    repeat (apply elem_of_union in Hk as [Hk | Hk]);
      apply elem_of_singleton in Hk; subst k; try done;
      simplify_map_eq; by rewrite (dict_get_present _ _ _ _ Hv). }
  repeat (split; [intros H; simplify_map_eq; by rewrite (dict_get_absent _ _ _ H) |]).
  unfold trade_columns. rewrite !dom_insert_L, dom_singleton_L. set_solver.
Qed.

(** ** The theorems at sample inputs *)

Lemma detect_trade_signal_table_witness :
  detect_trade_signal sample_snapshot = Ok "Bearish Signal" <->
  (25 < 30)%Q /\ (399 < 400)%Q.
Proof.
  apply (detect_trade_signal_table sample_snapshot 30 399 400); reflexivity.
Defined.

Lemma detect_trade_signal_total_witness :
  numeric_at wild_snapshot "ADX" = true /\
  (exists s, detect_trade_signal wild_snapshot = Ok s /\ signal_label s) /\
  detect_trade_signal wild_snapshot =
    detect_trade_signal (<["VWAP" := VNum 0]> wild_snapshot).
Proof.
  destruct detect_trade_signal_total as (Htotal & Hdefault & _).
  split; [reflexivity | split].
  - apply Htotal; reflexivity.
  - apply Hdefault; [right; right; reflexivity | reflexivity].
Defined.

Lemma manage_risk_thresholds_witness :
  to_float 400 = Ok (S754_finite false 7036874417766400 (-44)) /\
  manage_risk sample_position default_stop_loss default_take_profit =
    Ok (<["status" := VStr "closed"]> sample_position).
Proof.
  split; [vm_compute; reflexivity |].
  destruct (manage_risk_thresholds sample_position default_stop_loss
              default_take_profit 400 (S754_finite false 7036874417766400 (-44)) 200 0)
    as (Hstop & _ & _);
    [reflexivity | vm_compute; discriminate | vm_compute; reflexivity
    | reflexivity | reflexivity |].
  apply Hstop. vm_compute. reflexivity.
Defined.

Lemma manage_risk_zero_entry_witness :
  manage_risk zero_entry_position default_stop_loss default_take_profit =
    Ok zero_entry_position.
Proof.
  apply (manage_risk_zero_entry zero_entry_position default_stop_loss
           default_take_profit (VNum 0) 0); reflexivity.
Defined.

Lemma manage_risk_no_entry_witness :
  dict_get no_entry_position "entry_price" (VNum 0) = VNum 0 /\
  manage_risk no_entry_position default_stop_loss default_take_profit =
    Ok no_entry_position.
Proof.
  apply (manage_risk_no_entry no_entry_position default_stop_loss default_take_profit).
  reflexivity.
Defined.

Lemma manage_risk_frame_witness :
  (exists trade',
      manage_risk sample_position default_stop_loss default_take_profit = Ok trade') /\
  (<["status" := VStr "closed"]> sample_position) !! "loss" =
    sample_position !! "loss".
Proof.
  destruct (manage_risk_frame sample_position default_stop_loss default_take_profit)
    as [Hret Hframe].
  split.
  - apply Hret; vm_compute; reflexivity.
  - apply Hframe; [vm_compute; reflexivity | discriminate].
Defined.

Lemma manage_risk_negative_entry_witness :
  to_float (-400) = Ok (S754_finite true 7036874417766400 (-44)) /\
  manage_risk negative_entry_position default_stop_loss default_take_profit =
    Ok (<["status" := VStr "closed"]> negative_entry_position).
Proof.
  split; [vm_compute; reflexivity |].
  apply (manage_risk_negative_entry negative_entry_position default_stop_loss
           default_take_profit (-400) (S754_finite true 7036874417766400 (-44)) 0);
    [reflexivity | vm_compute; reflexivity | reflexivity | reflexivity
    | vm_compute; discriminate | reflexivity].
Defined.

Lemma manage_risk_status_witness :
  (exists trade',
      manage_risk sample_position default_stop_loss default_take_profit = Ok trade') /\
  ((<["status" := VStr "closed"]> sample_position) !! "status" =
     sample_position !! "status" \/
   (<["status" := VStr "closed"]> sample_position) !! "status" =
     Some (VStr "closed")).
Proof.
  destruct (manage_risk_status sample_position default_stop_loss default_take_profit)
    as [Hret Hstatus].
  split.
  - apply Hret; vm_compute; reflexivity.
  - apply Hstatus. vm_compute; reflexivity.
Defined.

Lemma execute_trade_no_payload_witness :
  execute_trade (BObject ∅) [] = (Ok no_payload_response, []).
Proof.
  destruct (execute_trade_no_payload (BObject ∅) []) as (_ & Hfalsy & _).
  apply Hfalsy. left. reflexivity.
Defined.

Lemma execute_trade_row_witness :
  exists row : gmap string value,
    execute_trade (BObject sample_payload) [] =
      (Ok ({[ "status" := FScalar (VStr "success"); "data" := FRows [row] ]}, 201%Z),
       [row]) /\
    row !! "status" = Some (VStr "executed").
Proof.
  destruct (execute_trade_row sample_payload []) as (row & Hrun & Hstatus & _).
  - intros H. apply (f_equal (fun m : gmap string value => m !! "signal")) in H.
    vm_compute in H. discriminate H.
  - exists row. split; [exact Hrun | exact Hstatus].
Defined.

(** ** Further properties of signal detection *)

Lemma py_compare_swap (a b : value) :
  py_compare b a = (c <- py_compare a b;; Ok (CompOpp c)).
Proof.
  unfold py_compare.
  destruct (as_number a) as [x|] eqn:Ea, (as_number b) as [y|] eqn:Eb; simpl.
  - by rewrite Qcompare_antisym.
  - by destruct b, a.
  - by destruct b, a.
  - destruct b, a; simpl; try done.
    by rewrite Stdlib.Strings.String.compare_antisym.
Qed.

Lemma py_gt_swap (a b : value) : py_gt b a = py_lt a b.
Proof.
  unfold py_gt, py_lt. rewrite py_compare_swap.
  destruct (py_compare a b) as [[]|]; reflexivity.
Qed.

Lemma py_lt_swap (a b : value) : py_lt b a = py_gt a b.
Proof.
  unfold py_gt, py_lt. rewrite py_compare_swap.
  destruct (py_compare a b) as [[]|]; reflexivity.
Qed.

(** A comparison that meets a value that is not a number raises, unless
    both sides are strings. *)
Lemma py_compare_raise (a b : value) :
  as_number a = None \/ as_number b = None ->
  ~ (exists s t, a = VStr s /\ b = VStr t) ->
  py_compare a b = Raise TypeError.
Proof.
  intros Hnum Hstr. unfold py_compare.
  destruct a as [| [|] | x | s], b as [| [|] | y | t]; simpl in *;
    try reflexivity; try (by destruct Hnum).
  destruct Hstr. eauto.
Qed.

(** X1: with a numeric ADX of at most 25 the signal is "No Trade" whatever
    the price and VWAP fields hold: they are not inspected, so even null or
    text readings raise nothing. *)
Theorem detect_trade_signal_weak_trend (data : gmap string value) (adx : Q) :
  as_number (dict_get data "ADX" (VNum 0)) = Some adx ->
  (adx <= 25)%Q ->
  detect_trade_signal data = Ok "No Trade".
Proof.
  intros Hadx Hle.
  destruct (py_gt_num _ (VNum 25) _ 25%Q Hadx eq_refl) as (c & E & I).
  unfold detect_trade_signal, py_and. rewrite E. simpl.
  destruct c; [| reflexivity].
  assert (25 < adx)%Q by (by apply I). lra.
Qed.

(** X2: an ADX field that is present but holds no number (null or text)
    makes signal detection raise a TypeError: the default 0 applies to an
    absent key only. *)
Theorem detect_trade_signal_bad_adx (data : gmap string value) (v : value) :
  data !! "ADX" = Some v ->
  as_number v = None ->
  detect_trade_signal data = Raise TypeError.
Proof.
  intros Hv Hnum. unfold detect_trade_signal, py_and, py_gt.
  rewrite (dict_get_present _ _ _ _ Hv).
  rewrite (py_compare_raise v (VNum 25)); [reflexivity | by left |].
  intros (s & t & _ & Ht). discriminate Ht.
Qed.

(** X3: only the ADX, price and VWAP fields are read: two snapshots that
    agree on these three keys get the same outcome, so further indicators
    (RSI, MACD, ...) change nothing. *)
Theorem detect_trade_signal_reads_three (data1 data2 : gmap string value) :
  data1 !! "ADX" = data2 !! "ADX" ->
  data1 !! "price" = data2 !! "price" ->
  data1 !! "VWAP" = data2 !! "VWAP" ->
  detect_trade_signal data1 = detect_trade_signal data2.
Proof.
  intros Ha Hp Hv. unfold detect_trade_signal, dict_get. by rewrite Ha, Hp, Hv.
Qed.

(** X4: exchanging the price and VWAP readings mirrors the outcome:
    "Bullish Signal" and "Bearish Signal" change places, "No Trade" stays,
    and an exception stays the same exception. *)
Theorem detect_trade_signal_mirror (data : gmap string value) :
  detect_trade_signal (swap_price_vwap data) =
    (s <- detect_trade_signal data;; Ok (mirror_label s)).
Proof.
  unfold detect_trade_signal, swap_price_vwap, dict_get.
  rewrite lookup_insert_ne, lookup_insert_ne by done.
  rewrite lookup_insert_eq, lookup_insert_ne, lookup_insert_eq by done.
  set (price := match data !! "price" with Some v => v | None => VNum 0 end).
  set (vwap := match data !! "VWAP" with Some v => v | None => VNum 0 end).
  rewrite (py_gt_swap price vwap), (py_lt_swap price vwap).
  unfold py_and, py_gt, py_lt.
  destruct (py_compare _ (VNum 25)) as [[]|]; simpl; try reflexivity.
  destruct (py_compare price vwap) as [[]|]; reflexivity.
Qed.

(** X5: under a strong trend (numeric ADX above 25) a price or VWAP field
    that holds no number raises a TypeError, unless both fields hold text. *)
Theorem detect_trade_signal_bad_price (data : gmap string value) (adx : Q) :
  as_number (dict_get data "ADX" (VNum 0)) = Some adx ->
  (25 < adx)%Q ->
  as_number (dict_get data "price" (VNum 0)) = None \/
  as_number (dict_get data "VWAP" (VNum 0)) = None ->
  ~ (exists s t, dict_get data "price" (VNum 0) = VStr s /\
                 dict_get data "VWAP" (VNum 0) = VStr t) ->
  detect_trade_signal data = Raise TypeError.
Proof.
  intros Hadx Hgt Hnum Hstr.
  destruct (py_gt_num _ (VNum 25) _ 25%Q Hadx eq_refl) as (c & E & I).
  unfold detect_trade_signal, py_and. rewrite E. simpl.
  assert (c = true) as -> by (by apply I).
  unfold py_gt. by rewrite (py_compare_raise _ _ Hnum Hstr).
Qed.

(** X6: under a strong trend, price and VWAP fields that both hold text are
    compared as text, character by character, not as numbers: the signal
    follows the lexicographic order of the two strings. *)
Theorem detect_trade_signal_text_prices (data : gmap string value) (adx : Q) s t :
  as_number (dict_get data "ADX" (VNum 0)) = Some adx ->
  (25 < adx)%Q ->
  data !! "price" = Some (VStr s) ->
  data !! "VWAP" = Some (VStr t) ->
  detect_trade_signal data =
    Ok (match Stdlib.Strings.String.compare s t with
        | Gt => "Bullish Signal"
        | Lt => "Bearish Signal"
        | Eq => "No Trade"
        end).
Proof.
  intros Hadx Hgt Hp Hv.
  destruct (py_gt_num _ (VNum 25) _ 25%Q Hadx eq_refl) as (c & E & I).
  unfold detect_trade_signal, py_and. rewrite E. simpl.
  assert (c = true) as -> by (by apply I).
  rewrite (dict_get_present _ _ _ _ Hp), (dict_get_present _ _ _ _ Hv).
  unfold py_gt, py_lt, py_compare. simpl.
  by destruct (Stdlib.Strings.String.compare s t).
Qed.

(** ** Further properties of risk management *)

Lemma dict_get_insert_ne (d : gmap string value) k k' v dflt :
  k <> k' -> dict_get (<[k := v]> d) k' dflt = dict_get d k' dflt.
Proof. intros Hne. unfold dict_get. by rewrite lookup_insert_ne. Qed.

(** X7: risk management is idempotent: running it again on the trade it
    returned, with the same multipliers, returns that trade once more. *)
Theorem manage_risk_idempotent (trade trade' : gmap string value) (sl tp : spec_float) :
  manage_risk trade sl tp = Ok trade' ->
  manage_risk trade' sl tp = Ok trade'.
Proof.
  intros H. destruct (manage_risk_outcome _ _ _ _ H) as [-> | ->]; [done |].
  revert H. unfold manage_risk, bind.
  rewrite !dict_get_insert_ne by done.
  repeat case_match; intros Hrun; try discriminate Hrun;
    by rewrite ?insert_insert_eq.
Qed.

(** X8: an entry_price field that is present but holds no number (null or
    text) passes the zero guard and makes the product with the float
    stop-loss multiplier raise a TypeError. *)
Theorem manage_risk_bad_entry (trade : gmap string value) (sl tp : spec_float)
    (v : value) :
  trade !! "entry_price" = Some v ->
  as_number v = None ->
  manage_risk trade sl tp = Raise TypeError.
Proof.
  intros Hv Hnum. unfold manage_risk, py_mul_float, py_eq.
  rewrite (dict_get_present _ _ _ _ Hv), Hnum.
  by destruct v.
Qed.

(** X9: the profit is looked at only after the stop-loss test has failed.
    With a non-zero entry price that converts to a float [f] and a numeric
    loss, a loss at or above the rounded product stop_loss * f closes the
    trade whatever the profit field holds; below it, a profit field that
    holds no number raises a TypeError. *)
Theorem manage_risk_loss_first (trade : gmap string value)
    (sl tp : spec_float) (e : Q) (f : spec_float) (l : Q) :
  as_number (dict_get trade "entry_price" (VNum 0)) = Some e ->
  ~ (e == 0)%Q ->
  to_float e = Ok f ->
  as_number (dict_get trade "loss" (VNum 0)) = Some l ->
  (ge_float l (float_mul sl f) = true ->
   manage_risk trade sl tp = Ok (<["status" := VStr "closed"]> trade)) /\
  (ge_float l (float_mul sl f) = false ->
   as_number (dict_get trade "profit" (VNum 0)) = None ->
   manage_risk trade sl tp = Raise TypeError).
Proof.
  intros Ee Hnz Ef El.
  rewrite (manage_risk_past_guard _ _ _ _ _ Ee Hnz Ef).
  rewrite (py_ge_float_num _ _ El). simpl. split.
  - by intros ->.
  - intros -> Hp. by rewrite (py_ge_float_raise _ Hp).
Qed.

(** X10: with a non-zero numeric entry price, a loss field that is present
    but holds no number raises a TypeError when the entry price converts to
    a float; when it does not (an int beyond the largest float), the
    OverflowError of the product comes first. *)
Theorem manage_risk_bad_loss (trade : gmap string value) (sl tp : spec_float) (e : Q) :
  as_number (dict_get trade "entry_price" (VNum 0)) = Some e ->
  ~ (e == 0)%Q ->
  as_number (dict_get trade "loss" (VNum 0)) = None ->
  manage_risk trade sl tp =
    Raise (if in_float_range (dict_get trade "entry_price" (VNum 0))
           then TypeError else OverflowError).
Proof.
  intros Ee Hnz Hl.
  destruct (in_float_range _) eqn:Hr.
  - destruct (in_float_range_get _ _ Hr) as (e' & f & Ee' & Ef).
    rewrite Ee in Ee'. injection Ee' as <-.
    rewrite (manage_risk_past_guard _ _ _ _ _ Ee Hnz Ef).
    by rewrite (py_ge_float_raise _ Hl).
  - by apply (manage_risk_overflow _ _ _ e).
Qed.

(** X12: closing is monotone in loss and profit. If a numeric position comes
    back with status "closed", then so does the same position with its loss
    and its profit replaced by numbers that are at least as large. *)
Theorem manage_risk_monotone (trade trade1 : gmap string value)
    (sl tp : spec_float) (l p l' p' : Q) :
  numeric_at trade "entry_price" = true ->
  as_number (dict_get trade "loss" (VNum 0)) = Some l ->
  as_number (dict_get trade "profit" (VNum 0)) = Some p ->
  (l <= l')%Q ->
  (p <= p')%Q ->
  manage_risk trade sl tp = Ok trade1 ->
  trade1 !! "status" = Some (VStr "closed") ->
  exists trade2,
    manage_risk (<["loss" := VNum l']> (<["profit" := VNum p']> trade)) sl tp = Ok trade2 /\
    trade2 !! "status" = Some (VStr "closed").
Proof.
  intros He El Ep Hl Hp Hrun Hclosed.
  set (worse := <["loss" := VNum l']> (<["profit" := VNum p']> trade)).
  destruct (numeric_at_get _ _ 0 He) as [e Ee].
  assert (Eentry : dict_get worse "entry_price" (VNum 0)
                   = dict_get trade "entry_price" (VNum 0)).
  { unfold worse. by rewrite !dict_get_insert_ne. }
  assert (El' : as_number (dict_get worse "loss" (VNum 0)) = Some l').
  { unfold worse, dict_get. by rewrite lookup_insert_eq. }
  assert (Ep' : as_number (dict_get worse "profit" (VNum 0)) = Some p').
  { unfold worse, dict_get. by rewrite lookup_insert_ne, lookup_insert_eq. }
  assert (Hst : worse !! "status" = trade !! "status").
  { unfold worse. by rewrite !lookup_insert_ne. }
  assert (Hset : (<["status" := VStr "closed"]> worse) !! "status"
                 = Some (VStr "closed")) by apply lookup_insert_eq.
  destruct (Qeq_dec e 0) as [Hz | Hnz].
  - assert (Hg : py_eq (dict_get trade "entry_price" (VNum 0)) (VNum 0) = true).
    { by apply (py_eq_num _ (VNum 0) e 0%Q Ee eq_refl). }
    rewrite (manage_risk_guard _ _ _ Hg) in Hrun. injection Hrun as <-.
    exists worse. split; [| by rewrite Hst].
    apply manage_risk_guard. by rewrite Eentry.
  - destruct (in_float_range (dict_get trade "entry_price" (VNum 0))) eqn:Hr.
    2: { by rewrite (manage_risk_overflow _ _ _ e Ee Hnz Hr) in Hrun. }
    destruct (in_float_range_get _ _ Hr) as (e' & f & Ee' & Ef).
    rewrite Ee in Ee'. injection Ee' as <-.
    rewrite (manage_risk_past_guard _ _ _ _ _ Ee Hnz Ef) in Hrun.
    rewrite <- Eentry in Ee.
    rewrite (manage_risk_past_guard _ _ _ _ _ Ee Hnz Ef).
    rewrite (py_ge_float_num _ _ El), (py_ge_float_num _ _ Ep) in Hrun.
    rewrite (py_ge_float_num _ _ El'), (py_ge_float_num _ _ Ep').
    simpl in *.
    destruct (ge_float l' (float_mul sl f)) eqn:D1; [eauto |].
    destruct (ge_float p' (float_mul tp f)) eqn:D2; [eauto |].
    exists worse. split; [reflexivity |]. rewrite Hst.
    destruct (ge_float l (float_mul sl f)) eqn:C1.
    { by rewrite (ge_float_mono _ _ _ Hl C1) in D1. }
    destruct (ge_float p (float_mul tp f)) eqn:C2.
    { by rewrite (ge_float_mono _ _ _ Hp C2) in D2. }
    by injection Hrun as <-.
Qed.

(** ** Further properties of trade logging and listing *)

Lemma truthy_object (fields : gmap string value) :
  fields <> ∅ -> truthy (BObject fields) = true.
Proof.
  intros Hne. simpl. apply negb_true_iff, Nat.eqb_neq. by rewrite map_size_empty_iff.
Qed.

(** The row built from the fields of a payload. *)
Lemma execute_trade_object (fields : gmap string value) (db : store) :
  fields <> ∅ ->
  exists row : gmap string value,
    execute_trade (BObject fields) db =
      (Ok ({[ "status" := FScalar (VStr "success"); "data" := FRows [row] ]}, 201%Z),
       (db ++ [row])%list) /\
    executed_row row /\
    row !! "entry_price" = Some (dict_get fields "entry_price" (VNum 0)) /\
    row !! "loss" = None /\
    row !! "profit" = None.
Proof.
  intros Hne. unfold execute_trade. rewrite (truthy_object _ Hne). simpl.
  eexists. split; [reflexivity |].
  split; [split |]; [by simplify_map_eq | | by simplify_map_eq].
  unfold trade_columns. rewrite !dom_insert_L, dom_singleton_L. set_solver.
Qed.

Lemma listed_rows_success (s : value) rows (code : Z) :
  listed_rows ({[ "status" := FScalar s; "data" := FRows rows ]}, code) = rows.
Proof.
  unfold listed_rows. simpl.
  by rewrite lookup_insert_ne, lookup_singleton_eq.
Qed.

(** X13: a body that is true in Python's sense without being an object (a
    non-empty array or string, a non-zero number, [true]) makes the handler
    raise an AttributeError at [payload.get]; nothing is inserted. *)
Theorem execute_trade_not_object (payload : json_body) (db : store) :
  truthy payload = true ->
  (forall fields, payload <> BObject fields) ->
  execute_trade payload db = (Raise AttributeError, db).
Proof.
  intros Ht Hobj. unfold execute_trade. rewrite Ht. simpl.
  destruct payload as [v | items | fields]; [reflexivity | reflexivity |].
  by destruct (Hobj fields).
Qed.

(** X14: over any run of execute-trade requests the store only grows at its
    end: the final store is the initial one followed by new rows, one for
    each reply with code 201 and none for the other replies, and every new
    row has status "executed" and exactly the six columns. *)
Theorem execute_trades_append_only (payloads : list json_body) (db : store) :
  exists rows : list (gmap string value),
    (execute_trades payloads db).2 = (db ++ rows)%list /\
    length rows = length (filter (fun r => is_created r = true)
                                 (execute_trades payloads db).1) /\
    Forall executed_row rows.
Proof.
  revert db. induction payloads as [| payload rest IH]; intros db.
  - exists []. simpl. by rewrite app_nil_r.
  - simpl. destruct (execute_trade payload db) as [reply db'] eqn:Hstep.
    destruct (IH db') as (rows & Hstore & Hlen & Hrows).
    destruct (execute_trades rest db') as [replies db''] eqn:Hrest. simpl in *.
    destruct (truthy payload) eqn:Ht.
    + destruct payload as [v | items | fields].
      * rewrite (execute_trade_not_object _ db Ht) in Hstep by done.
        injection Hstep as <- <-. exists rows.
        rewrite filter_cons_False by (simpl; discriminate). done.
      * rewrite (execute_trade_not_object _ db Ht) in Hstep by done.
        injection Hstep as <- <-. exists rows.
        rewrite filter_cons_False by (simpl; discriminate). done.
      * assert (Hne : fields <> ∅).
        { intros ->. discriminate Ht. }
        destruct (execute_trade_object fields db Hne) as (row & Hrun & Hrow & _).
        rewrite Hrun in Hstep. injection Hstep as <- <-.
        exists (row :: rows). split; [| split].
        -- by rewrite Hstore, <- app_assoc.
        -- rewrite filter_cons_True by reflexivity. simpl. by rewrite Hlen.
        -- by constructor.
    + rewrite (execute_trade_falsy _ db Ht) in Hstep.
      injection Hstep as <- <-. exists rows.
      rewrite filter_cons_False by (simpl; discriminate). done.
Qed.

(** X15: risk management on the row that execute-trade has just written.
    The row carries neither loss nor profit. With an entry price that is
    absent or zero it comes back unchanged (status still "executed"),
    whatever the multipliers; with an entry price that converts to a
    strictly negative float it is closed at once for every strictly
    positive stop-loss multiplier. *)
Theorem manage_risk_after_execute (fields : gmap string value) (db : store)
    (sl tp : spec_float) (e : Q) :
  fields <> ∅ ->
  as_number (dict_get fields "entry_price" (VNum 0)) = Some e ->
  exists row : gmap string value,
    (execute_trade (BObject fields) db).2 = (db ++ [row])%list /\
    ((e == 0)%Q -> manage_risk row sl tp = Ok row) /\
    (forall f, to_float e = Ok f -> float_negative f = true ->
               float_positive sl = true ->
               manage_risk row sl tp = Ok (<["status" := VStr "closed"]> row)).
Proof.
  intros Hne He.
  destruct (execute_trade_object fields db Hne) as (row & Hrun & _ & Hentry & Hl & Hp).
  exists row. split; [by rewrite Hrun |].
  assert (Ee : as_number (dict_get row "entry_price" (VNum 0)) = Some e).
  { by rewrite (dict_get_present _ _ _ _ Hentry). }
  split.
  - intros Hz. apply manage_risk_guard.
    by apply (py_eq_num _ (VNum 0) e 0%Q Ee eq_refl).
  - intros f Ef Hneg Hsl.
    destruct (Qeq_dec e 0) as [Hz | Hnz].
    { exfalso. revert Ef Hneg. unfold to_float, nearest_float.
      rewrite (Qred_complete _ _ Hz). simpl. by intros [= <-]. }
    rewrite (manage_risk_past_guard _ _ _ _ _ Ee Hnz Ef).
    rewrite (dict_get_absent _ _ _ Hl).
    rewrite (py_ge_float_num (VNum 0) 0 eq_refl). simpl.
    rewrite (ge_float_signed 0 _); [reflexivity | lra |].
    by apply float_mul_positive_negative.
Qed.

(** X16: listing after an execute-trade request. The listing has code 200
    and leaves the store as it is; after an accepted payload it holds the
    rows listed before together with the inserted row, one row more; after
    a rejected request (missing payload, or a body that is not an object) it
    is the listing as before. *)
Theorem get_trades_after_execute (payload : json_body) (db : store) :
  (forall fields, payload = BObject fields -> fields <> ∅ ->
     exists (row : gmap string value) (reply : response),
       (execute_trade payload db).1 =
         Ok ({[ "status" := FScalar (VStr "success"); "data" := FRows [row] ]}, 201%Z) /\
       get_trades (execute_trade payload db).2 =
         (Ok reply, (execute_trade payload db).2) /\
       reply.2 = 200%Z /\
       (forall r, r ∈ listed_rows reply <-> r ∈ db \/ r = row) /\
       length (listed_rows reply) = S (length db)) /\
  (is_created (execute_trade payload db).1 = false ->
   get_trades (execute_trade payload db).2 = get_trades db).
Proof.
  split.
  - intros fields -> Hne.
    destruct (execute_trade_object fields db Hne) as (row & -> & _).
    exists row. eexists. simpl. split; [reflexivity |].
    split; [reflexivity |]. split; [reflexivity |].
    rewrite listed_rows_success. split.
    + intros r. by rewrite elem_of_app, list_elem_of_singleton.
    + rewrite length_app. simpl. lia.
  - destruct (truthy payload) eqn:Ht.
    + destruct payload as [v | items | fields].
      * by rewrite (execute_trade_not_object _ db Ht).
      * by rewrite (execute_trade_not_object _ db Ht).
      * assert (Hne : fields <> ∅).
        { intros ->. discriminate Ht. }
        destruct (execute_trade_object fields db Hne) as (row & -> & _).
        simpl. discriminate.
    + by rewrite (execute_trade_falsy _ db Ht).
Qed.

(** X17: only the signal, broker, capital_allocation, entry_price and
    user_id fields of a payload are read: two non-empty payload objects that
    agree on these five keys produce the same reply and the same store, so a
    status, an id or any other field sent along is ignored. *)
Theorem execute_trade_reads_five (fields1 fields2 : gmap string value) (db : store) :
  fields1 <> ∅ ->
  fields2 <> ∅ ->
  (forall k, k ∈ trade_columns -> k <> "status" -> fields1 !! k = fields2 !! k) ->
  execute_trade (BObject fields1) db = execute_trade (BObject fields2) db.
Proof.
  intros Hne1 Hne2 Hagree.
  unfold execute_trade. rewrite (truthy_object _ Hne1), (truthy_object _ Hne2).
  unfold dict_get, trade_columns in *. simpl.
  rewrite !(Hagree "signal"), !(Hagree "broker"), !(Hagree "capital_allocation"),
    !(Hagree "entry_price"), !(Hagree "user_id") by (done || set_solver).
  reflexivity.
Qed.

(** ** The further properties at sample inputs *)

Lemma detect_trade_signal_weak_trend_witness :
  detect_trade_signal weak_snapshot = Ok "No Trade".
Proof.
  apply (detect_trade_signal_weak_trend weak_snapshot 25);
    [reflexivity | vm_compute; discriminate].
Defined.

Lemma detect_trade_signal_bad_adx_witness :
  detect_trade_signal {[ "ADX" := VStr "30"; "price" := VNum 401 ]} = Raise TypeError.
Proof.
  apply (detect_trade_signal_bad_adx _ (VStr "30")); reflexivity.
Defined.

Lemma detect_trade_signal_reads_three_witness :
  detect_trade_signal (<["RSI" := VNum 70]> sample_snapshot) =
    detect_trade_signal sample_snapshot.
Proof. apply detect_trade_signal_reads_three; reflexivity. Defined.

Lemma detect_trade_signal_bad_price_witness :
  detect_trade_signal null_price_snapshot = Raise TypeError.
Proof.
  apply (detect_trade_signal_bad_price null_price_snapshot 30);
    [reflexivity | reflexivity | left; reflexivity |].
  intros (s & t & Hs & _). vm_compute in Hs. discriminate Hs.
Defined.

Lemma detect_trade_signal_text_prices_witness :
  detect_trade_signal text_snapshot = Ok "Bearish Signal".
Proof.
  apply (detect_trade_signal_text_prices text_snapshot 30 "100" "99"); reflexivity.
Defined.

Lemma manage_risk_idempotent_witness :
  manage_risk (<["status" := VStr "closed"]> sample_position)
    default_stop_loss default_take_profit =
    Ok (<["status" := VStr "closed"]> sample_position).
Proof.
  apply (manage_risk_idempotent sample_position). vm_compute. reflexivity.
Defined.

Lemma manage_risk_bad_entry_witness :
  manage_risk null_entry_position default_stop_loss default_take_profit =
    Raise TypeError.
Proof.
  apply (manage_risk_bad_entry null_entry_position default_stop_loss
           default_take_profit VNone); reflexivity.
Defined.

Lemma manage_risk_loss_first_witness :
  manage_risk text_profit_position default_stop_loss default_take_profit =
    Ok (<["status" := VStr "closed"]> text_profit_position).
Proof.
  destruct (manage_risk_loss_first text_profit_position default_stop_loss
              default_take_profit 400 (S754_finite false 7036874417766400 (-44)) 250)
    as [Hhit _];
    [reflexivity | vm_compute; discriminate | vm_compute; reflexivity | reflexivity |].
  apply Hhit. vm_compute. reflexivity.
Defined.

Lemma manage_risk_bad_loss_witness :
  manage_risk text_loss_position default_stop_loss default_take_profit =
    Raise TypeError.
Proof.
  apply (manage_risk_bad_loss text_loss_position default_stop_loss
           default_take_profit 400);
    [reflexivity | vm_compute; discriminate | reflexivity].
Defined.

Lemma manage_risk_monotone_witness :
  exists trade2,
    manage_risk (<["loss" := VNum 300]> (<["profit" := VNum 10]> sample_position))
      default_stop_loss default_take_profit = Ok trade2 /\
    trade2 !! "status" = Some (VStr "closed").
Proof.
  apply (manage_risk_monotone sample_position
           (<["status" := VStr "closed"]> sample_position)
           default_stop_loss default_take_profit 200 0 300 10);
    try reflexivity; vm_compute; (reflexivity || discriminate).
Defined.

Lemma execute_trade_not_object_witness :
  execute_trade (BArray [VNum 1]) [] = (Raise AttributeError, []).
Proof. apply execute_trade_not_object; [reflexivity | discriminate]. Defined.

Lemma short_payload_fields : short_payload <> ∅.
Proof.
  intros H. apply (f_equal (fun m : gmap string value => m !! "signal")) in H.
  vm_compute in H. discriminate H.
Defined.

Lemma sample_payload_fields : sample_payload <> ∅.
Proof.
  intros H. apply (f_equal (fun m : gmap string value => m !! "signal")) in H.
  vm_compute in H. discriminate H.
Defined.

Lemma manage_risk_after_execute_witness :
  exists row : gmap string value,
    (execute_trade (BObject short_payload) []).2 = [row] /\
    manage_risk row default_stop_loss default_take_profit =
      Ok (<["status" := VStr "closed"]> row).
Proof.
  destruct (manage_risk_after_execute short_payload [] default_stop_loss
              default_take_profit (-400))
    as (row & Hstore & _ & Hclose);
    [exact short_payload_fields | reflexivity |].
  exists row. split; [exact Hstore |].
  apply (Hclose (S754_finite true 7036874417766400 (-44)));
    [vm_compute; reflexivity | reflexivity | reflexivity].
Defined.

Lemma get_trades_after_execute_witness :
  exists (row : gmap string value) (reply : response),
    get_trades (execute_trade (BObject sample_payload) []).2 =
      (Ok reply, (execute_trade (BObject sample_payload) []).2) /\
    length (listed_rows reply) = 1.
Proof.
  destruct (get_trades_after_execute (BObject sample_payload) []) as [Hlist _].
  destruct (Hlist sample_payload eq_refl sample_payload_fields)
    as (row & reply & _ & Hget & _ & _ & Hlen).
  exists row, reply. split; [exact Hget | exact Hlen].
Defined.

Lemma execute_trade_reads_five_witness :
  execute_trade (BObject sample_payload) [] =
    execute_trade (BObject {[ "signal" := VStr "Bullish Signal" ]}) [].
Proof.
  apply execute_trade_reads_five.
  - exact sample_payload_fields.
  - intros H. apply (f_equal (fun m : gmap string value => m !! "signal")) in H.
    vm_compute in H. discriminate H.
  - intros k Hk Hstatus. unfold trade_columns in Hk.
    repeat (apply elem_of_union in Hk as [Hk | Hk]);
      apply elem_of_singleton in Hk; subst k; (reflexivity || by destruct Hstatus).
Defined.
